(** * arxiv_mcp_server.tools.download: job lifecycle of paper conversion

    A shallow embedding of [src/arxiv_mcp_server/tools/download.py]:
    the [ConversionStatus] registry, [get_paper_path],
    [convert_pdf_to_markdown] (HTML first, PDF as fallback) and the
    request handler [handle_download].

    Python statements that touch the module globals, the file system, the
    clock or the logger are commands of a state-and-exception monad over
    [World]; the remote services and the two converters are fields of
    [External], so every theorem holds for whatever they answer. *)

From Stdlib Require Import ZArith String List.
From stdpp Require Import base option relations gmap strings list fin_maps pretty.
Import ListNotations.
Local Open Scope string_scope.
Local Open Scope Z_scope.

(** ** Exceptions *)

(** The classes the module raises or tells apart; everything else a
    collaborator may raise is [OtherException] with its class name.  All of
    them derive from [Exception]. *)
Inductive ExnClass :=
  | StopIteration
  | KeyError
  | FileNotFoundError
  | HTTPError
  | UnboundLocalError
  | OtherException (name : string).

(** An exception object: its class and the text [str(e)] gives. *)
Record Exn := mkExn { exn_class : ExnClass; exn_str : string }.

Definition is_StopIteration (e : Exn) : bool :=
  match exn_class e with StopIteration => true | _ => false end.

(** ** Data model *)

(** [datetime] values are instants of a logical clock. *)
Definition datetime := Z.

(** The dataclass [ConversionStatus].  [status] is one of 'downloading',
    'converting', 'success', 'error'. *)
Record ConversionStatus := mkConversionStatus {
  paper_id : string;
  status : string;
  started_at : datetime;
  completed_at : option datetime;
  error : option string
}.

Definition with_status (s : string) (j : ConversionStatus) : ConversionStatus :=
  mkConversionStatus (paper_id j) s (started_at j) (completed_at j) (error j).
Definition with_completed_at (t : option datetime) (j : ConversionStatus) : ConversionStatus :=
  mkConversionStatus (paper_id j) (status j) (started_at j) t (error j).
Definition with_error (e : option string) (j : ConversionStatus) : ConversionStatus :=
  mkConversionStatus (paper_id j) (status j) (started_at j) (completed_at j) e.

Inductive LogLevel := INFO | ERROR.

(** What the process can observe and change: the module global
    [conversion_statuses], the directories and files under the storage
    root (a file is its path and its text), the clock, the records given
    to [logger], and the conversions handed to [asyncio.create_task] that
    have not run yet. *)
Record World := mkWorld {
  conversion_statuses : gmap string ConversionStatus;
  dirs : gset string;
  files : gmap string string;
  clock : datetime;
  log : list (LogLevel * string);
  tasks : list string
}.

Definition set_conversion_statuses (f : gmap string ConversionStatus → gmap string ConversionStatus)
    (w : World) : World :=
  mkWorld (f (conversion_statuses w)) (dirs w) (files w) (clock w) (log w) (tasks w).
Definition set_dirs (f : gset string → gset string) (w : World) : World :=
  mkWorld (conversion_statuses w) (f (dirs w)) (files w) (clock w) (log w) (tasks w).
Definition set_files (f : gmap string string → gmap string string) (w : World) : World :=
  mkWorld (conversion_statuses w) (dirs w) (f (files w)) (clock w) (log w) (tasks w).
Definition set_clock (f : datetime → datetime) (w : World) : World :=
  mkWorld (conversion_statuses w) (dirs w) (files w) (f (clock w)) (log w) (tasks w).
Definition set_log (f : list (LogLevel * string) → list (LogLevel * string)) (w : World) : World :=
  mkWorld (conversion_statuses w) (dirs w) (files w) (clock w) (f (log w)) (tasks w).
Definition set_tasks (f : list string → list string) (w : World) : World :=
  mkWorld (conversion_statuses w) (dirs w) (files w) (clock w) (log w) (f (tasks w)).

(** ** External collaborators *)

(** A [requests.Response]: the parts [raise_for_status] and the caller read. *)
Record Response := mkResponse {
  status_code : Z;
  reason : string;
  response_text : string
}.

(** An [arxiv.Result]. *)
Record Paper := mkPaper { entry_id : string }.

(** The answers of the network and of the converters.  A left injection is
    the exception the call raises.
    - [requests_get url] is [requests.get(url, timeout=10)];
    - [md html] is [markdownify] with the options of the source;
    - [to_markdown pdf] is [pymupdf4llm]'s [to_markdown] on the text of the
      PDF file, with the options of the source;
    - [arxiv_results id] is what [client.results(arxiv.Search(id_list=[id]))]
      yields;
    - [download_pdf paper] is the PDF [paper.download_pdf] stores. *)
Record External := mkExternal {
  requests_get : string → Exn + Response;
  md : string → Exn + string;
  to_markdown : string → Exn + string;
  arxiv_results : string → Exn + list Paper;
  download_pdf : Paper → Exn + string
}.

(** ** Results of the tool *)

Inductive JsonVal := JNull | JStr (s : string).

(** [types.TextContent(type="text", text=json.dumps(d))]: [text] keeps the
    dictionary [d] handed to [json.dumps], keys in the order written. *)
Record TextContent := mkTextContent {
  type : string;
  text : list (string * JsonVal)
}.

(** The [arguments] dictionary, with the value types of [inputSchema]:
    'paper_id' a string, 'check_status' a boolean; either key may be
    missing. *)
Record Arguments := mkArguments {
  arg_paper_id : option string;
  arg_check_status : option bool
}.

(** ** The monad of Python commands *)

(** A command runs in a world and either raises ([inl]) or returns ([inr]),
    leaving a world behind. *)
Definition M (A : Type) : Type := World → (Exn + A) * World.

#[export] Instance M_ret : MRet M := λ A a w, (inr a, w).
#[export] Instance M_bind : MBind M := λ A B k m w,
  match m w with
  | (inl e, w') => (inl e, w')
  | (inr a, w') => k a w'
  end.

Definition raise {A} (e : Exn) : M A := λ w, (inl e, w).

(** [try: body  except Exception as e: handler e]. *)
Definition try_except {A} (body : M A) (handler : Exn → M A) : M A := λ w,
  match body w with
  | (inl e, w') => handler e w'
  | (inr a, w') => (inr a, w')
  end.

(** The result of a call to a collaborator. *)
Definition call {A} (r : Exn + A) : M A := λ w, (r, w).

Definition modify (f : World → World) : M unit := λ w, (inr tt, f w).
Definition gets {A} (f : World → A) : M A := λ w, (inr (f w), w).

Definition logger_info (msg : string) : M unit :=
  modify (set_log (λ l, (l ++ [(INFO, msg)])%list)).
Definition logger_error (msg : string) : M unit :=
  modify (set_log (λ l, (l ++ [(ERROR, msg)])%list)).

(** [datetime.now()]: reads the clock, which then moves on. *)
Definition datetime_now : M datetime := λ w, (inr (clock w), set_clock Z.succ w).

(** The local file system is taken to be in order: [mkdir] of the storage
    directory and [open(..., "w")] with its [write] succeed. *)

(** [path.exists()]. *)
Definition path_exists (path : string) : M bool :=
  gets (λ w, bool_decide (is_Some (files w !! path))).

(** [with open(path, "w", encoding="utf-8") as f: f.write(content)]. *)
Definition write_file (path content : string) : M unit :=
  modify (set_files (<[path := content]>)).

(** [conversion_statuses.get(paper_id)]. *)
Definition statuses_get (paper_id : string) : M (option ConversionStatus) :=
  gets (λ w, conversion_statuses w !! paper_id).

(** [conversion_statuses[paper_id]]. *)
Definition statuses_getitem (paper_id : string) : M ConversionStatus := λ w,
  match conversion_statuses w !! paper_id with
  | Some j => (inr j, w)
  | None => (inl (mkExn KeyError ("'" +:+ paper_id +:+ "'")), w)
  end.

(** [conversion_statuses[paper_id] = j]. *)
Definition statuses_setitem (paper_id : string) (j : ConversionStatus) : M unit :=
  modify (set_conversion_statuses (<[paper_id := j]>)).

(** An attribute assignment [status.x = v] on the object that
    [conversion_statuses] holds under [paper_id].  The object is reached
    through the dictionary only and an entry is never replaced, so the key
    stands for the reference. *)
Definition setattr (paper_id : string) (f : ConversionStatus → ConversionStatus) : M unit :=
  modify (set_conversion_statuses (alter f paper_id)).

(** [asyncio.create_task(asyncio.to_thread(convert_pdf_to_markdown, paper_id))]. *)
Definition create_task (paper_id : string) : M unit :=
  modify (set_tasks (λ l, (l ++ [paper_id])%list)).

(** The [HTTPError] that [response.raise_for_status()] raises for a 4xx or
    5xx answer. *)
Definition http_error (url : string) (r : Response) : option Exn :=
  if bool_decide (400 ≤ status_code r < 500) then
    Some (mkExn HTTPError
      (pretty (status_code r) +:+ " Client Error: " +:+ reason r +:+ " for url: " +:+ url))
  else if bool_decide (500 ≤ status_code r < 600) then
    Some (mkExn HTTPError
      (pretty (status_code r) +:+ " Server Error: " +:+ reason r +:+ " for url: " +:+ url))
  else None.

(** [response.raise_for_status()]. *)
Definition raise_for_status (url : string) (r : Response) : M unit :=
  if http_error url r is Some e then raise e else mret tt.

(** [next(it)] on the iterator of the search results. *)
Definition next {A} (results : list A) : M A :=
  match results with
  | x :: _ => mret x
  | [] => raise (mkExn StopIteration "")
  end.

Section Program.

(** [settings.STORAGE_PATH], from the configuration module. *)
Variable STORAGE_PATH : string.

(** [t.isoformat()]. *)
Variable isoformat : datetime → string.

(** [get_paper_path(paper_id, suffix)]: the directory is created on the
    way. *)
Definition get_paper_path (paper_id : string) (suffix : string) : M string :=
  _ ← modify (set_dirs (λ d, {[STORAGE_PATH]} ∪ d));
  mret (STORAGE_PATH +:+ "/" +:+ paper_id +:+ suffix).

(** The [try] block of [convert_pdf_to_markdown]: the HTML page of the
    paper, turned into Markdown. *)
Definition html_to_markdown (ext : External) (paper_id : string) : M unit :=
  _ ← logger_info ("Starting HTML to Markdown conversion for " +:+ paper_id);
  let html_url := "https://export.arxiv.org/html/" +:+ paper_id in
  response ← call (requests_get ext html_url);
  _ ← raise_for_status html_url response;
  let html_content := response_text response in
  markdown ← call (md ext html_content);
  md_path ← get_paper_path paper_id ".md";
  _ ← write_file md_path markdown;
  st ← statuses_get paper_id;
  _ ← (if st is Some _ then
         _ ← setattr paper_id (with_status "success");
         now ← datetime_now;
         setattr paper_id (with_completed_at (Some now))
       else mret tt);
  logger_info ("HTML to Markdown conversion completed for " +:+ paper_id).

(** The [try] block of the fallback: the downloaded PDF, turned into
    Markdown. *)
Definition pdf_to_markdown (ext : External) (paper_id : string) : M unit :=
  pdf_path ← get_paper_path paper_id ".pdf";
  pdf_exists ← path_exists pdf_path;
  _ ← (if negb pdf_exists then
         raise (mkExn FileNotFoundError ("PDF file not found at " +:+ pdf_path))
       else mret tt);
  pdf ← gets (λ w, default "" (files w !! pdf_path));
  markdown ← call (to_markdown ext pdf);
  md_path ← get_paper_path paper_id ".md";
  _ ← write_file md_path markdown;
  st ← statuses_get paper_id;
  _ ← (if st is Some _ then
         _ ← setattr paper_id (with_status "success");
         now ← datetime_now;
         _ ← setattr paper_id (with_completed_at (Some now));
         setattr paper_id (with_error None)
       else mret tt);
  logger_info ("PDF to Markdown conversion successful for " +:+ paper_id).

(** The [except] clause of the fallback. *)
Definition pdf_to_markdown_except (paper_id : string) (pdf_e : Exn) : M unit :=
  _ ← logger_error ("PDF to Markdown conversion failed for " +:+ paper_id
                     +:+ ": " +:+ exn_str pdf_e);
  st ← statuses_get paper_id;
  if st is Some _ then
    _ ← setattr paper_id (with_status "error");
    now ← datetime_now;
    _ ← setattr paper_id (with_completed_at (Some now));
    setattr paper_id (with_error (Some (exn_str pdf_e)))
  else mret tt.

(** [convert_pdf_to_markdown(paper_id)]. *)
Definition convert_pdf_to_markdown (ext : External) (paper_id : string) : M unit :=
  try_except (html_to_markdown ext paper_id)
    (λ e,
     _ ← logger_error ("HTML to Markdown conversion failed for " +:+ paper_id
                        +:+ ": " +:+ exn_str e);
     _ ← logger_info ("Falling back to PDF conversion for " +:+ paper_id);
     try_except (pdf_to_markdown ext paper_id) (pdf_to_markdown_except paper_id)).

(** The [except] clauses of [handle_download].  [paper_id] is the local
    variable of that name, [None] while it is not bound yet. *)
Definition handle_download_except (paper_id : option string) (e : Exn)
    : M (list TextContent) :=
  if is_StopIteration e then
    match paper_id with
    | Some paper_id =>
        mret [mkTextContent "text"
                [("status", JStr "error");
                 ("message", JStr ("Paper " +:+ paper_id +:+ " not found on arXiv"))]]
    | None =>
        raise (mkExn UnboundLocalError
          "cannot access local variable 'paper_id' where it is not associated with a value")
    end
  else
    mret [mkTextContent "text"
            [("status", JStr "error");
             ("message", JStr ("Error: " +:+ exn_str e))]].

(** [arguments["paper_id"]]. *)
Definition arguments_paper_id (arguments : Arguments) : M string :=
  match arg_paper_id arguments with
  | Some v => mret v
  | None => raise (mkExn KeyError "'paper_id'")
  end.

(** The [try] block of [handle_download] after [paper_id] is bound. *)
Definition handle_download_try (ext : External) (arguments : Arguments)
    (paper_id : string) : M (list TextContent) :=
  let check_status := default false (arg_check_status arguments) in
  if check_status then
    st ← statuses_get paper_id;
    match st with
    | None =>
        md_path ← get_paper_path paper_id ".md";
        md_exists ← path_exists md_path;
        if (md_exists : bool) then
          md_path ← get_paper_path paper_id ".md";
          mret [mkTextContent "text"
                  [("status", JStr "success");
                   ("message", JStr "Paper is ready");
                   ("resource_uri", JStr ("file://" +:+ md_path))]]
        else
          mret [mkTextContent "text"
                  [("status", JStr "unknown");
                   ("message", JStr "No download or conversion in progress")]]
    | Some st =>
        mret [mkTextContent "text"
                [("status", JStr (status st));
                 ("started_at", JStr (isoformat (started_at st)));
                 ("completed_at",
                    if completed_at st is Some t then JStr (isoformat t) else JNull);
                 ("error", if error st is Some msg then JStr msg else JNull);
                 ("message", JStr ("Paper conversion " +:+ status st))]]
    end
  else
    md_path ← get_paper_path paper_id ".md";
    md_exists ← path_exists md_path;
    if (md_exists : bool) then
      md_path ← get_paper_path paper_id ".md";
      mret [mkTextContent "text"
              [("status", JStr "success");
               ("message", JStr "Paper already available");
               ("resource_uri", JStr ("file://" +:+ md_path))]]
    else
      in_progress ← gets (λ w, bool_decide (is_Some (conversion_statuses w !! paper_id)));
      if (in_progress : bool) then
        st ← statuses_getitem paper_id;
        mret [mkTextContent "text"
                [("status", JStr (status st));
                 ("message", JStr ("Paper conversion " +:+ status st));
                 ("started_at", JStr (isoformat (started_at st)))]]
      else
        pdf_path ← get_paper_path paper_id ".pdf";
        now ← datetime_now;
        _ ← statuses_setitem paper_id
              (mkConversionStatus paper_id "downloading" now None None);
        results ← call (arxiv_results ext paper_id);
        paper ← next results;
        pdf ← call (download_pdf ext paper);
        _ ← write_file pdf_path pdf;
        st ← statuses_getitem paper_id;
        _ ← setattr paper_id (with_status "converting");
        _ ← create_task paper_id;
        mret [mkTextContent "text"
                [("status", JStr "converting");
                 ("message", JStr "Paper downloaded, conversion started");
                 ("started_at", JStr (isoformat (started_at st)))]].

(** [handle_download(arguments)].  The coroutine has no [await]: a call runs
    from its first statement to its [return] in one piece.  In the [except]
    clauses the local [paper_id] is bound exactly when [arguments] has the
    key. *)
Definition handle_download (ext : External) (arguments : Arguments)
    : M (list TextContent) :=
  try_except
    (paper_id ← arguments_paper_id arguments;
     handle_download_try ext arguments paper_id)
    (handle_download_except (arg_paper_id arguments)).

(** ** Runs of the process *)

(** One step of the process: the event loop serves a request, or a
    conversion handed to [create_task] runs in its thread.  The network may
    answer differently at every step.  A conversion is one step: the only
    Job it writes to is the one of its own paper, and no request writes to
    a Job that is registered. *)
Inductive step : World → World → Prop :=
  | step_request (ext : External) (arguments : Arguments) (w : World) :
      step w (handle_download ext arguments w).2
  | step_convert (ext : External) (paper_id : string) (before after : list string)
        (w : World) :
      tasks w = (before ++ paper_id :: after)%list →
      step w (convert_pdf_to_markdown ext paper_id
                (set_tasks (λ _, (before ++ after)%list) w)).2.

(** At start-up the registry is empty and no conversion is pending; the
    storage directory may hold files of earlier runs. *)
Definition initial (w : World) : Prop :=
  conversion_statuses w = ∅ ∧ tasks w = [].

Definition reachable (w : World) : Prop :=
  ∃ w0, initial w0 ∧ rtc step w0 w.

(** The terminal states of a Job. *)
Definition terminal (j : ConversionStatus) : Prop :=
  status j = "success" ∨ status j = "error".

(** The states of a Job whose request is still being worked on. *)
Definition in_flight (j : ConversionStatus) : Prop :=
  status j = "downloading" ∨ status j = "converting".

(** What the two paths of [convert_pdf_to_markdown] come to: the Markdown
    text, or the exception that ends the path. *)
Definition primary_result (ext : External) (paper_id : string) : Exn + string :=
  let html_url := "https://export.arxiv.org/html/" +:+ paper_id in
  match requests_get ext html_url with
  | inl e => inl e
  | inr response =>
      match http_error html_url response with
      | Some e => inl e
      | None => md ext (response_text response)
      end
  end.

Definition secondary_result (ext : External) (paper_id : string) (w : World)
    : Exn + string :=
  let pdf_path := STORAGE_PATH +:+ "/" +:+ paper_id +:+ ".pdf" in
  match files w !! pdf_path with
  | None => inl (mkExn FileNotFoundError ("PDF file not found at " +:+ pdf_path))
  | Some pdf => to_markdown ext pdf
  end.

End Program.

(** ** Worlds that the operations leave behind *)

(** One more record in the log. *)
Definition logged (level : LogLevel) (msg : string) (w : World) : World :=
  set_log (λ l, (l ++ [(level, msg)])%list) w.

(** The update of the Job at the end of a path: the Job registered under
    [paper_id], if there is one, is rewritten with the time the clock
    shows. *)
Definition finish (paper_id : string)
    (update : datetime → ConversionStatus → ConversionStatus) (w : World) : World :=
  match conversion_statuses w !! paper_id with
  | Some _ =>
      set_clock Z.succ (set_conversion_statuses (alter (update (clock w)) paper_id) w)
  | None => w
  end.

(** The three updates of the source: lines 97-98, 127-129 and 137-139. *)
Definition succeeded (t : datetime) (j : ConversionStatus) : ConversionStatus :=
  with_completed_at (Some t) (with_status "success" j).
Definition succeeded_cleared (t : datetime) (j : ConversionStatus) : ConversionStatus :=
  with_error None (with_completed_at (Some t) (with_status "success" j)).
Definition failed (msg : string) (t : datetime) (j : ConversionStatus) : ConversionStatus :=
  with_error (Some msg) (with_completed_at (Some t) (with_status "error" j)).

(** The world in which the fallback starts. *)
Definition fallen_back (paper_id : string) (e : Exn) (w : World) : World :=
  logged INFO ("Falling back to PDF conversion for " +:+ paper_id)
    (logged ERROR ("HTML to Markdown conversion failed for " +:+ paper_id
                     +:+ ": " +:+ exn_str e)
       (logged INFO ("Starting HTML to Markdown conversion for " +:+ paper_id) w)).

(** Every pending conversion belongs to a Job that waits for it, and no
    paper has two of them. *)
Definition pending_ok (w : World) : Prop :=
  NoDup (tasks w) ∧
  ∀ id, id ∈ tasks w →
    ∃ j, conversion_statuses w !! id = Some j ∧ status j = "converting" ∧
         completed_at j = None ∧ error j = None.

(** The dictionary reported for a Job by a status check (lines 181-191) and
    by a repeated request (lines 218-222). *)
Definition status_report (isoformat : datetime → string) (j : ConversionStatus)
    : list (string * JsonVal) :=
  [("status", JStr (status j));
   ("started_at", JStr (isoformat (started_at j)));
   ("completed_at", if completed_at j is Some t then JStr (isoformat t) else JNull);
   ("error", if error j is Some msg then JStr msg else JNull);
   ("message", JStr ("Paper conversion " +:+ status j))].

Definition progress_report (isoformat : datetime → string) (j : ConversionStatus)
    : list (string * JsonVal) :=
  [("status", JStr (status j));
   ("message", JStr ("Paper conversion " +:+ status j));
   ("started_at", JStr (isoformat (started_at j)))].

(** A Job as the module keeps it under the key [id]: it carries its key,
    and [completed_at] and [error] go with its state. *)
Definition job_ok (id : string) (j : ConversionStatus) : Prop :=
  paper_id j = id ∧
  ((status j = "downloading" ∨ status j = "converting")
     ∧ completed_at j = None ∧ error j = None
   ∨ status j = "success" ∧ is_Some (completed_at j) ∧ error j = None
   ∨ status j = "error" ∧ is_Some (completed_at j) ∧ is_Some (error j)).

(** Every registered Job is as [job_ok] says, and a Job that is
    'converting' has its conversion pending. *)
Definition registry_ok (w : World) : Prop :=
  (∀ id j, conversion_statuses w !! id = Some j → job_ok id j) ∧
  (∀ id j, conversion_statuses w !! id = Some j →
           status j = "converting" → id ∈ tasks w).

(** The values of 'status' in a result of the tool. *)
Definition result_statuses : list string :=
  ["success"; "error"; "unknown"; "downloading"; "converting"].

(** ** Sample inputs *)

Module Sample.

Definition storage : string := "/data/papers".
Definition iso (t : datetime) : string := pretty t.

(** A fresh process: nothing registered, nothing on disk. *)
Definition fresh : World := mkWorld ∅ ∅ ∅ 0 [] [].

Definition raises {A} (name msg : string) : Exn + A :=
  inl (mkExn (OtherException name) msg).

(** The network is down and the extractor fails without a message. *)
Definition offline : External := mkExternal
  (λ _, raises "ConnectionError" "Connection refused")
  (λ html, inr ("# " +:+ html))
  (λ _, raises "AssertionError" "")
  (λ _, raises "ConnectionError" "Connection refused")
  (λ _, raises "ConnectionError" "Connection refused").

(** The HTML page is served; arXiv knows one paper. *)
Definition online : External := mkExternal
  (λ _, inr (mkResponse 200 "OK" "<h1>Title</h1>"))
  (λ html, inr ("# " +:+ html))
  (λ pdf, inr ("text of " +:+ pdf))
  (λ id, inr (if bool_decide (id = "2101.00001") then [mkPaper id] else []))
  (λ _, inr "%PDF-1.5").

(** The HTML page is missing (404); the extractor works. *)
Definition no_html : External := mkExternal
  (λ _, inr (mkResponse 404 "Not Found" ""))
  (λ html, inr ("# " +:+ html))
  (λ pdf, inr ("text of " +:+ pdf))
  (λ id, inr [mkPaper id])
  (λ _, inr "%PDF-1.5").

Definition request (id : string) : Arguments := mkArguments (Some id) None.
Definition check (id : string) : Arguments := mkArguments (Some id) (Some true).

(** A Job that failed at time 1. *)
Definition failed_job : ConversionStatus :=
  mkConversionStatus "2101.00001" "error" 0 (Some 1) (Some "boom").
Definition with_failed_job : World :=
  mkWorld {["2101.00001" := failed_job]} ∅ ∅ 2 [] [].

(** A Job whose PDF is on disk and whose conversion is about to run. *)
Definition converting_job : ConversionStatus :=
  mkConversionStatus "2101.00001" "converting" 0 None None.
Definition with_converting_job : World :=
  mkWorld {["2101.00001" := converting_job]} ∅
          {["/data/papers/2101.00001.pdf" := "%PDF-1.5"]} 1 [] [].

(** The same Job, but the PDF is not on disk. *)
Definition with_lost_pdf : World :=
  mkWorld {["2101.00001" := converting_job]} ∅ ∅ 1 [] [].

(** The artifact of an earlier run is on disk. *)
Definition with_artifact : World :=
  mkWorld ∅ ∅ {["/data/papers/2101.00001.md" := "# Title"]} 0 [] [].

(** A run: a request, then its conversion. *)
Definition requested : World :=
  (handle_download storage iso online (request "2101.00001") fresh).2.
Definition converted : World :=
  (convert_pdf_to_markdown storage online "2101.00001"
     (set_tasks (λ _, []) requested)).2.

(** A request whose search fails: the Job stays 'downloading'. *)
Definition stalled : World :=
  (handle_download storage iso offline (request "2101.00001") fresh).2.

End Sample.

(** ** How the operations run *)

Lemma run_eq {A} (r : Exn + A) s1 s2 d1 d2 f c l t :
  s1 = s2 → d1 = d2 → (r, mkWorld s1 d1 f c l t) = (r, mkWorld s2 d2 f c l t).
Proof. by intros -> ->. Qed.

Lemma md_path_is_not_pdf_path (root id : string) :
  root +:+ "/" +:+ id +:+ ".md" ≠ root +:+ "/" +:+ id +:+ ".pdf".
Proof. intros H. by do 3 apply (inj (String.app _)) in H. Qed.


Ltac unfold_m :=
  unfold try_except, call, raise, modify, gets, logger_info, logger_error,
    datetime_now, path_exists, write_file, statuses_get, statuses_getitem,
    statuses_setitem, setattr, create_task, raise_for_status, next,
    get_paper_path, mbind, mret, M_bind, M_ret in *.

Ltac world_eq :=
  unfold modify, finish, logged, set_conversion_statuses, set_log, set_clock,
    set_files, set_dirs, succeeded, succeeded_cleared, failed; cbn;
  apply run_eq;
    [by rewrite ?alter_alter_eq
    |first [done | by rewrite (assoc_L (∪)), (idemp_L (∪))]].

Section Runs.

Variable STORAGE_PATH : string.
Variable isoformat : datetime → string.

Abbreviation made_dir := (set_dirs (λ d, {[STORAGE_PATH]} ∪ d)).
Abbreviation path_of id suffix := (STORAGE_PATH +:+ "/" +:+ id +:+ suffix).

Lemma secondary_result_files ext id w w' :
  files w = files w' →
  secondary_result STORAGE_PATH ext id w = secondary_result STORAGE_PATH ext id w'.
Proof. unfold secondary_result. by intros ->. Qed.

Lemma html_to_markdown_run ext id w :
  html_to_markdown STORAGE_PATH ext id w =
    match primary_result ext id with
    | inr m =>
        (inr tt,
         logged INFO ("HTML to Markdown conversion completed for " +:+ id)
           (finish id succeeded
              (set_files (<[path_of id ".md" := m]>)
                 (made_dir
                    (logged INFO ("Starting HTML to Markdown conversion for " +:+ id) w)))))
    | inl e => (inl e, logged INFO ("Starting HTML to Markdown conversion for " +:+ id) w)
    end.
Proof.
  unfold primary_result, html_to_markdown. unfold_m. cbn.
  destruct (requests_get ext _) as [e|r]; [done|].
  destruct (http_error _ r); [done|]. cbn.
  destruct (md ext _) as [e|m]; [done|]. cbn.
  unfold finish. cbn.
  destruct (conversion_statuses w !! id); cbn; world_eq.
Qed.

Lemma pdf_to_markdown_run ext id w :
  pdf_to_markdown STORAGE_PATH ext id w =
    match secondary_result STORAGE_PATH ext id w with
    | inr m =>
        (inr tt,
         logged INFO ("PDF to Markdown conversion successful for " +:+ id)
           (finish id succeeded_cleared
              (set_files (<[path_of id ".md" := m]>) (made_dir w))))
    | inl e => (inl e, made_dir w)
    end.
Proof.
  unfold secondary_result, pdf_to_markdown. unfold_m. cbn.
  destruct (files w !! _) as [pdf|] eqn:Hpdf; cbn; [|done].
  rewrite Hpdf; cbn.
  destruct (to_markdown ext pdf) as [e|m]; [done|]. cbn.
  unfold finish. cbn.
  destruct (conversion_statuses w !! id); cbn; world_eq.
Qed.

Lemma pdf_to_markdown_except_run id pdf_e w :
  pdf_to_markdown_except id pdf_e w =
    (inr tt,
     finish id (failed (exn_str pdf_e))
       (logged ERROR ("PDF to Markdown conversion failed for " +:+ id
                        +:+ ": " +:+ exn_str pdf_e) w)).
Proof.
  unfold pdf_to_markdown_except. unfold_m. cbn.
  unfold finish. cbn.
  destruct (conversion_statuses w !! id); cbn; world_eq.
Qed.

(** [convert_pdf_to_markdown] always returns, in one of three worlds. *)
Lemma convert_pdf_to_markdown_run ext id w :
  convert_pdf_to_markdown STORAGE_PATH ext id w =
    (inr tt,
     match primary_result ext id with
     | inr m =>
         logged INFO ("HTML to Markdown conversion completed for " +:+ id)
           (finish id succeeded
              (set_files (<[path_of id ".md" := m]>)
                 (made_dir
                    (logged INFO ("Starting HTML to Markdown conversion for " +:+ id) w))))
     | inl e =>
         match secondary_result STORAGE_PATH ext id w with
         | inr m =>
             logged INFO ("PDF to Markdown conversion successful for " +:+ id)
               (finish id succeeded_cleared
                  (set_files (<[path_of id ".md" := m]>) (made_dir (fallen_back id e w))))
         | inl pdf_e =>
             finish id (failed (exn_str pdf_e))
               (logged ERROR ("PDF to Markdown conversion failed for " +:+ id
                                +:+ ": " +:+ exn_str pdf_e)
                  (made_dir (fallen_back id e w)))
         end
     end).
Proof.
  unfold convert_pdf_to_markdown, try_except.
  rewrite html_to_markdown_run.
  destruct (primary_result ext id) as [e|m]; [|reflexivity].
  unfold logger_error, logger_info, modify, mbind, M_bind; cbn.
  rewrite pdf_to_markdown_run.
  rewrite (secondary_result_files ext id _ w) by done.
  destruct (secondary_result STORAGE_PATH ext id w) as [pdf_e|m]; [|reflexivity].
  by rewrite pdf_to_markdown_except_run.
Qed.

(** The registry after [finish]: the entry of [id] is rewritten, if it is
    there; nothing else moves. *)
Lemma finish_statuses id update w :
  conversion_statuses (finish id update w) =
    alter (update (clock w)) id (conversion_statuses w).
Proof.
  unfold finish. destruct (conversion_statuses w !! id) eqn:Hj; [done|].
  apply map_eq. intros i. destruct (decide (i = id)) as [->|].
  - by rewrite lookup_alter_eq, Hj.
  - by rewrite lookup_alter_ne.
Qed.

Lemma finish_tasks id update w : tasks (finish id update w) = tasks w.
Proof. unfold finish. by destruct (conversion_statuses w !! id). Qed.

Lemma finish_files id update w : files (finish id update w) = files w.
Proof. unfold finish. by destruct (conversion_statuses w !! id). Qed.

Lemma finish_log id update w : log (finish id update w) = log w.
Proof. unfold finish. by destruct (conversion_statuses w !! id). Qed.

(** A conversion rewrites the Job of its paper with one of the three
    updates, keeps its identity, and neither starts nor drops a task. *)
Lemma convert_pdf_to_markdown_statuses ext id w :
  ∃ update : ConversionStatus → ConversionStatus,
    conversion_statuses (convert_pdf_to_markdown STORAGE_PATH ext id w).2 =
      alter update id (conversion_statuses w) ∧
    tasks (convert_pdf_to_markdown STORAGE_PATH ext id w).2 = tasks w ∧
    ∀ j, terminal (update j) ∧ paper_id (update j) = paper_id j ∧
         started_at (update j) = started_at j.
Proof.
  rewrite convert_pdf_to_markdown_run. cbn.
  destruct (primary_result ext id) as [e|m];
    [destruct (secondary_result STORAGE_PATH ext id w) as [pdf_e|m]|];
    cbn; rewrite finish_statuses, finish_tasks; cbn;
    eexists; (split; [reflexivity|]); (split; [done|]); intros j;
    unfold terminal; cbn; auto.
Qed.

(** What a request does to the registry, the tasks and the files: nothing,
    or it registers a new Job, which stays 'downloading' when the search
    or the download fails and else is 'converting' with its PDF stored and
    its conversion started. *)
Lemma handle_download_effect ext arguments w :
  let w' := (handle_download STORAGE_PATH isoformat ext arguments w).2 in
  (conversion_statuses w' = conversion_statuses w ∧ tasks w' = tasks w ∧ files w' = files w)
  ∨ (∃ id, arg_paper_id arguments = Some id ∧
           conversion_statuses w !! id = None ∧
           files w !! path_of id ".md" = None ∧
           ((conversion_statuses w' =
               <[id := mkConversionStatus id "downloading" (clock w) None None]>
                 (conversion_statuses w) ∧
             tasks w' = tasks w ∧ files w' = files w)
            ∨ (∃ pdf,
                 conversion_statuses w' =
                   <[id := mkConversionStatus id "converting" (clock w) None None]>
                     (conversion_statuses w) ∧
                 tasks w' = (tasks w ++ [id])%list ∧
                 files w' = <[path_of id ".pdf" := pdf]> (files w)))).
Proof.
  unfold handle_download, handle_download_try, handle_download_except,
    arguments_paper_id.
  destruct arguments as [[id|] check]; unfold_m; cbn; [|by left].
  destruct (default false check); cbn.
  - destruct (conversion_statuses w !! id) eqn:Hj; cbn; [by left|].
    case_bool_decide; cbn; by left.
  - case_bool_decide as Hmd; cbn; [by left|].
    case_bool_decide as Hj; cbn.
    + destruct (conversion_statuses w !! id); cbn; by left.
    + right. exists id. split; [done|].
      split; [by apply eq_None_not_Some|]. split; [by apply eq_None_not_Some|].
      destruct (arxiv_results ext id) as [e|[|paper ?]]; cbn.
      * left. by destruct (is_StopIteration e).
      * by left.
      * destruct (download_pdf ext paper) as [e|pdf]; cbn.
        -- left. by destruct (is_StopIteration e).
        -- rewrite lookup_insert_eq. cbn. right. exists pdf.
           by rewrite alter_insert_eq.
Qed.

(** A request never touches a Job that is already registered. *)
Lemma handle_download_keeps_job ext arguments w id j :
  conversion_statuses w !! id = Some j →
  conversion_statuses (handle_download STORAGE_PATH isoformat ext arguments w).2 !! id
    = Some j.
Proof.
  intros Hj.
  destruct (handle_download_effect ext arguments w)
    as [(-> & _ & _) | (id' & _ & Hnone & _ & [(-> & _ & _) | (pdf & -> & _ & _)])];
    [done| |]; rewrite lookup_insert_ne; try done; congruence.
Qed.

(** Once a Job is registered, a request for its paper registers nothing,
    downloads nothing and starts no conversion. *)
Lemma handle_download_registered ext arguments w id :
  arg_paper_id arguments = Some id →
  is_Some (conversion_statuses w !! id) →
  let w' := (handle_download STORAGE_PATH isoformat ext arguments w).2 in
  conversion_statuses w' = conversion_statuses w ∧ tasks w' = tasks w ∧ files w' = files w.
Proof.
  intros Hid [j Hj].
  destruct (handle_download_effect ext arguments w)
    as [H | (id' & Hid' & Hnone & _)]; [done|]. congruence.
Qed.

(** No step drops a Job or gives a paper another one. *)
Lemma step_keeps_registered w w' id j :
  step STORAGE_PATH isoformat w w' →
  conversion_statuses w !! id = Some j →
  ∃ j', conversion_statuses w' !! id = Some j' ∧ paper_id j' = paper_id j ∧
        started_at j' = started_at j.
Proof.
  intros Hstep Hj. destruct Hstep as [ext arguments w | ext id' before after w Htasks].
  - exists j. by rewrite (handle_download_keeps_job _ _ _ _ _ Hj).
  - destruct (convert_pdf_to_markdown_statuses ext id' (set_tasks (λ _, (before ++ after)%list) w))
      as (update & -> & _ & Hupdate). cbn.
    destruct (decide (id' = id)) as [->|].
    + rewrite lookup_alter_eq, Hj. cbn. exists (update j). by destruct (Hupdate j) as (_ & ? & ?).
    + rewrite lookup_alter_ne by done. by exists j.
Qed.

Lemma rtc_step_keeps_registered w w' id :
  rtc (step STORAGE_PATH isoformat) w w' →
  is_Some (conversion_statuses w !! id) → is_Some (conversion_statuses w' !! id).
Proof.
  induction 1 as [|w1 w2 w3 Hstep _ IH]; [done|]. intros [j Hj]. apply IH.
  destruct (step_keeps_registered _ _ _ _ Hstep Hj) as (j' & -> & _). by eexists.
Qed.

(** [pending_ok] holds at start-up and after every step. *)
Lemma initial_pending_ok w : initial w → pending_ok w.
Proof.
  intros [_ Htasks]. unfold pending_ok. rewrite Htasks. split; [constructor|].
  intros id Hin. by apply elem_of_nil in Hin.
Qed.

Lemma step_pending_ok w w' :
  step STORAGE_PATH isoformat w w' → pending_ok w → pending_ok w'.
Proof.
  intros Hstep [Hnodup Hjobs].
  destruct Hstep as [ext arguments w | ext id' before after w Htasks].
  - destruct (handle_download_effect ext arguments w)
      as [(Hs & Ht & _) | (id & _ & Hnone & _ & [(Hs & Ht & _) | (pdf & Hs & Ht & _)])];
      unfold pending_ok; rewrite Hs, Ht.
    + done.
    + split; [done|]. intros i Hi. destruct (Hjobs i Hi) as (j & Hj & ?).
      exists j. rewrite lookup_insert_ne; [done|congruence].
    + assert (id ∉ tasks w) as Hfresh.
      { intros Hi. destruct (Hjobs id Hi) as (j & Hj & _). congruence. }
      split.
      * apply NoDup_app. split; [done|]. split; [|apply NoDup_singleton].
        intros i Hi ->%list_elem_of_singleton. done.
      * intros i [Hi | ->%list_elem_of_singleton]%elem_of_app.
        -- destruct (Hjobs i Hi) as (j & Hj & ?). exists j.
           rewrite lookup_insert_ne; [done|congruence].
        -- eexists. by rewrite lookup_insert_eq.
  - destruct (convert_pdf_to_markdown_statuses ext id' (set_tasks (λ _, (before ++ after)%list) w))
      as (update & Hs & Ht & _).
    unfold pending_ok. rewrite Hs, Ht. cbn.
    rewrite Htasks in Hnodup, Hjobs.
    apply NoDup_app in Hnodup as (Hbefore & Hdisj & [Hnotin Hafter]%NoDup_cons).
    split.
    + apply NoDup_app. split; [done|]. split; [|done].
      intros i Hi Hi'. apply (Hdisj i Hi). by right.
    + intros i Hi. assert (i ≠ id') as Hne.
      { intros ->. apply elem_of_app in Hi as [Hi|Hi]; [|done]. apply (Hdisj id' Hi). by left. }
      rewrite lookup_alter_ne by done. apply Hjobs.
      apply elem_of_app in Hi as [Hi|Hi]; apply elem_of_app; [by left|right; by right].
Qed.

Lemma reachable_pending_ok w : reachable STORAGE_PATH isoformat w → pending_ok w.
Proof.
  intros (w0 & Hinit%initial_pending_ok & Hrun).
  induction Hrun as [|w1 w2 w3 Hstep _ IH]; [done|].
  apply IH. by apply (step_pending_ok w1).
Qed.

Lemma reachable_step w w' :
  reachable STORAGE_PATH isoformat w → step STORAGE_PATH isoformat w w' →
  reachable STORAGE_PATH isoformat w'.
Proof. intros (w0 & ? & ?) ?. exists w0. split; [done|]. by eapply rtc_r. Qed.


End Runs.

(** ** The conversion engine *)

Section Conversion.

Variable STORAGE_PATH : string.

Abbreviation path_of' id suffix := (STORAGE_PATH +:+ "/" +:+ id +:+ suffix).

(** C1, as amended.  When the HTML path ends with the exception [e] and
    the PDF path then ends with [pdf_e], [convert_pdf_to_markdown] returns
    normally and leaves the registered Job in state 'error', with
    [completed_at] set to the time of the update and [error] set to the
    text [str(pdf_e)] of the second failure, whatever that text is; [e] is
    only logged.  When the failure is the missing PDF the text is the
    'PDF file not found at ...' message, which is not empty. *)
Theorem convert_both_paths_fail ext id w j e pdf_e :
  conversion_statuses w !! id = Some j →
  primary_result ext id = inl e →
  secondary_result STORAGE_PATH ext id w = inl pdf_e →
  ∃ w', convert_pdf_to_markdown STORAGE_PATH ext id w = (inr tt, w') ∧
        conversion_statuses w' !! id =
          Some (mkConversionStatus (paper_id j) "error" (started_at j)
                  (Some (clock w)) (Some (exn_str pdf_e))) ∧
        (ERROR, "HTML to Markdown conversion failed for " +:+ id +:+ ": " +:+ exn_str e)
          ∈ log w' ∧
        (files w !! path_of' id ".pdf" = None →
         exn_str pdf_e = "PDF file not found at " +:+ path_of' id ".pdf" ∧
         exn_str pdf_e ≠ "").
Proof.
  intros Hj Hprimary Hsecondary.
  rewrite convert_pdf_to_markdown_run, Hprimary, Hsecondary.
  eexists. split; [reflexivity|]. split; [|split].
  - rewrite finish_statuses. cbn. by rewrite lookup_alter_eq, Hj.
  - rewrite finish_log. cbn. rewrite !elem_of_app, !list_elem_of_singleton. tauto.
  - intros Hnone. unfold secondary_result in Hsecondary.
    rewrite Hnone in Hsecondary. injection Hsecondary as <-. done.
Qed.


(** C7.  Without a Job for [id] in the registry, the conversion still runs
    to its end: it returns without an exception and the registry is the one
    it started with. *)
Theorem convert_without_job ext id w :
  conversion_statuses w !! id = None →
  ∃ w', convert_pdf_to_markdown STORAGE_PATH ext id w = (inr tt, w') ∧
        conversion_statuses w' = conversion_statuses w.
Proof.
  intros Hnone. rewrite convert_pdf_to_markdown_run.
  eexists. split; [reflexivity|].
  destruct (primary_result ext id) as [e|m];
    [destruct (secondary_result STORAGE_PATH ext id w) as [pdf_e|m]|];
    unfold finish; cbn; by rewrite Hnone.
Qed.


End Conversion.

(** ** The request handler *)

Section Requests.

Variable STORAGE_PATH : string.
Variable isoformat : datetime → string.

Abbreviation md_path_of id := (STORAGE_PATH +:+ "/" +:+ id +:+ ".md").
Abbreviation pdf_path_of id := (STORAGE_PATH +:+ "/" +:+ id +:+ ".pdf").
Abbreviation storage_made := (set_dirs (λ d, {[STORAGE_PATH]} ∪ d)).

(** The statements between [try:] and the first [except]. *)
Abbreviation try_block ext arguments :=
  (paper_id ← arguments_paper_id arguments;
   handle_download_try STORAGE_PATH isoformat ext arguments paper_id).

Ltac unfold_handler :=
  unfold handle_download, handle_download_try, handle_download_except,
    arguments_paper_id.

(** A status check for a registered Job reports the Job and changes
    nothing. *)
Lemma handle_download_check_job ext arguments w id j :
  arg_paper_id arguments = Some id →
  arg_check_status arguments = Some true →
  conversion_statuses w !! id = Some j →
  handle_download STORAGE_PATH isoformat ext arguments w =
    (inr [mkTextContent "text" (status_report isoformat j)], w).
Proof.
  destruct arguments as [paper check]. cbn. intros -> -> Hj.
  unfold_handler. unfold_m. cbn. by rewrite Hj.
Qed.

(** A request for a paper without artifact whose Job is registered reports
    the Job. *)
Lemma handle_download_in_progress ext arguments w id j :
  arg_paper_id arguments = Some id →
  default false (arg_check_status arguments) = false →
  files w !! md_path_of id = None →
  conversion_statuses w !! id = Some j →
  handle_download STORAGE_PATH isoformat ext arguments w =
    (inr [mkTextContent "text" (progress_report isoformat j)], storage_made w).
Proof.
  destruct arguments as [paper check]. cbn. intros -> Hcheck Hmd Hj.
  unfold_handler. unfold_m. cbn. rewrite Hcheck. cbn.
  rewrite Hmd. cbn. rewrite Hj. cbn. by rewrite Hj.
Qed.

(** A request for a paper with neither artifact nor Job registers the Job:
    it is left 'downloading' when the search or the download fails, and is
    'converting', with the PDF stored and the conversion started, when they
    succeed. *)
Lemma handle_download_starts ext arguments w id :
  arg_paper_id arguments = Some id →
  default false (arg_check_status arguments) = false →
  files w !! md_path_of id = None →
  conversion_statuses w !! id = None →
  let w' := (handle_download STORAGE_PATH isoformat ext arguments w).2 in
  (conversion_statuses w' =
     <[id := mkConversionStatus id "downloading" (clock w) None None]>
       (conversion_statuses w) ∧
   tasks w' = tasks w ∧ files w' = files w)
  ∨ (∃ pdf,
       conversion_statuses w' =
         <[id := mkConversionStatus id "converting" (clock w) None None]>
           (conversion_statuses w) ∧
       tasks w' = (tasks w ++ [id])%list ∧
       files w' = <[pdf_path_of id := pdf]> (files w)).
Proof.
  destruct arguments as [paper check]. cbn. intros -> Hcheck Hmd Hj.
  unfold_handler. unfold_m. cbn. rewrite Hcheck. cbn.
  rewrite Hmd. cbn. rewrite Hj. cbn.
  destruct (arxiv_results ext id) as [e|[|paper ?]]; cbn.
  - left. by destruct (is_StopIteration e).
  - by left.
  - destruct (download_pdf ext paper) as [e|pdf]; cbn.
    + left. by destruct (is_StopIteration e).
    + rewrite lookup_insert_eq. cbn. right. exists pdf. by rewrite alter_insert_eq.
Qed.


(** In a run, the conversion of a pending task finds the Job of its paper
    'converting' and without [error]; when one of the two paths succeeds
    the Job ends 'success' with [completed_at] set and [error] still
    [None], on the HTML path as on the PDF path. *)
Lemma pending_conversion_success w ext id before after m :
  reachable STORAGE_PATH isoformat w →
  tasks w = (before ++ id :: after)%list →
  primary_result ext id = inr m ∨
  (∃ e, primary_result ext id = inl e ∧
        secondary_result STORAGE_PATH ext id w = inr m) →
  ∃ j, conversion_statuses w !! id = Some j ∧
       conversion_statuses
         (convert_pdf_to_markdown STORAGE_PATH ext id
            (set_tasks (λ _, (before ++ after)%list) w)).2 !! id =
         Some (mkConversionStatus (paper_id j) "success" (started_at j)
                 (Some (clock w)) None).
Proof.
  intros [_ Hjobs]%reachable_pending_ok Htasks Hpath.
  destruct (Hjobs id) as (j & Hj & _ & _ & Herror).
  { rewrite Htasks. apply elem_of_app. right. by left. }
  exists j. split; [done|].
  rewrite convert_pdf_to_markdown_run. cbn.
  rewrite (secondary_result_files _ ext id _ w) by done.
  destruct Hpath as [-> | (e & -> & ->)]; cbn;
    rewrite finish_statuses; cbn; rewrite lookup_alter_eq, Hj; cbn;
    unfold succeeded, succeeded_cleared, with_error, with_completed_at, with_status; cbn;
    by rewrite ?Herror.
Qed.

(** C3.  [handle_download] returns for every [arguments] and every world:
    its result is a list of one text content and no exception leaves it.
    An exception of the [try] block other than [StopIteration] becomes the
    result with status 'error' and message 'Error: ' followed by the text
    of the exception; a missing 'paper_id' is the [KeyError] case of
    this. *)
Theorem handle_download_never_raises ext arguments w :
  (∃ d w', handle_download STORAGE_PATH isoformat ext arguments w =
             (inr [mkTextContent "text" d], w')) ∧
  (∀ e w', try_block ext arguments w = (inl e, w') →
           is_StopIteration e = false →
           handle_download STORAGE_PATH isoformat ext arguments w =
             (inr [mkTextContent "text"
                     [("status", JStr "error");
                      ("message", JStr ("Error: " +:+ exn_str e))]], w')) ∧
  (arg_paper_id arguments = None →
   handle_download STORAGE_PATH isoformat ext arguments w =
     (inr [mkTextContent "text"
             [("status", JStr "error");
              ("message", JStr "Error: 'paper_id'")]], w)).
Proof.
  split; [|split].
  - unfold_handler.
    destruct arguments as [[id|] check]; unfold_m; cbn; [|by eauto].
    destruct (default false check); cbn.
    + destruct (conversion_statuses w !! id); cbn; [by eauto|].
      case_bool_decide; cbn; by eauto.
    + case_bool_decide; cbn; [by eauto|].
      case_bool_decide; cbn.
      * destruct (conversion_statuses w !! id); cbn; by eauto.
      * destruct (arxiv_results ext id) as [e|[|paper ?]]; cbn.
        -- destruct (is_StopIteration e); by eauto.
        -- by eauto.
        -- destruct (download_pdf ext paper) as [e|pdf]; cbn.
           ++ destruct (is_StopIteration e); by eauto.
           ++ rewrite lookup_insert_eq. cbn. by eauto.
  - intros e w' Hblock Hstop. unfold handle_download, try_except.
    rewrite Hblock. unfold handle_download_except. by rewrite Hstop.
  - destruct arguments as [paper check]. cbn. by intros ->.
Qed.


(** C5.  A request for a paper whose '.md' artifact is on disk returns
    status 'success', message 'Paper already available' and the 'file://'
    locator of the artifact.  The world it leaves differs from the one it
    found by the storage directory at most: the registry, the files, the
    pending conversions, the clock and the log are the same, so no Job is
    created or changed and nothing is downloaded or converted. *)
Theorem handle_download_already_available ext arguments w id :
  arg_paper_id arguments = Some id →
  default false (arg_check_status arguments) = false →
  is_Some (files w !! md_path_of id) →
  handle_download STORAGE_PATH isoformat ext arguments w =
    (inr [mkTextContent "text"
            [("status", JStr "success");
             ("message", JStr "Paper already available");
             ("resource_uri", JStr ("file://" +:+ md_path_of id))]],
     storage_made w).
Proof.
  destruct arguments as [paper check]. cbn. intros -> Hcheck Hmd.
  unfold_handler. unfold_m. cbn. rewrite Hcheck. cbn.
  rewrite bool_decide_true by done. cbn.
  world_eq.
Qed.



(** C9.  A call of [handle_download] runs in one piece, so two requests in
    immediate succession are two calls one after the other.  When the
    first finds neither artifact nor Job, it registers the Job, which is
    'downloading' or 'converting' when the second call starts; the second
    call reports that Job and registers nothing, stores nothing and starts
    no conversion.  The same holds for every request for the paper at any
    later point of the run: the Job registered first remains the only
    one. *)
Theorem repeated_request_reports_job ext1 ext2 arguments id w :
  arg_paper_id arguments = Some id →
  default false (arg_check_status arguments) = false →
  files w !! md_path_of id = None →
  conversion_statuses w !! id = None →
  let first := handle_download STORAGE_PATH isoformat ext1 arguments w in
  let second := handle_download STORAGE_PATH isoformat ext2 arguments first.2 in
  ∃ j, conversion_statuses first.2 !! id = Some j ∧
       in_flight j ∧
       second.1 = inr [mkTextContent "text" (progress_report isoformat j)] ∧
       conversion_statuses second.2 = conversion_statuses first.2 ∧
       tasks second.2 = tasks first.2 ∧
       files second.2 = files first.2 ∧
       ∀ w' ext' arguments',
         rtc (step STORAGE_PATH isoformat) first.2 w' →
         arg_paper_id arguments' = Some id →
         let later := handle_download STORAGE_PATH isoformat ext' arguments' w' in
         conversion_statuses later.2 = conversion_statuses w' ∧
         tasks later.2 = tasks w' ∧
         files later.2 = files w'.
Proof.
  intros Hid Hcheck Hmd Hnone first second.
  assert (∃ j, conversion_statuses first.2 !! id = Some j ∧ in_flight j ∧
               files first.2 !! md_path_of id = None) as (j & Hj & Hflight & Hmd').
  { destruct (handle_download_starts ext1 arguments w id Hid Hcheck Hmd Hnone)
      as [(Hs & _ & Hf) | (pdf & Hs & _ & Hf)]; fold first in Hs, Hf;
      eexists; rewrite Hs, Hf, lookup_insert_eq; (split; [done|]).
    - split; [by left | done].
    - split; [by right|]. rewrite lookup_insert_ne; [done|].
      intros H. symmetry in H. by apply md_path_is_not_pdf_path in H. }
  exists j. split; [done|]. split; [done|].
  subst second.
  rewrite (handle_download_in_progress ext2 arguments first.2 id j) by done.
  cbn. repeat (split; [done|]).
  intros w' ext' arguments' Hrun Hid'.
  apply handle_download_registered with id; [done|].
  apply (rtc_step_keeps_registered STORAGE_PATH isoformat first.2); [done|by eexists].
Qed.

End Requests.

(** ** The theorems at sample inputs *)

Lemma convert_both_paths_fail_witness :
  conversion_statuses Sample.with_lost_pdf !! "2101.00001" = Some Sample.converting_job ∧
  primary_result Sample.offline "2101.00001" =
    inl (mkExn (OtherException "ConnectionError") "Connection refused") ∧
  secondary_result Sample.storage Sample.offline "2101.00001" Sample.with_lost_pdf =
    inl (mkExn FileNotFoundError "PDF file not found at /data/papers/2101.00001.pdf") ∧
  ∃ w', convert_pdf_to_markdown Sample.storage Sample.offline "2101.00001"
          Sample.with_lost_pdf = (inr tt, w') ∧
        conversion_statuses w' !! "2101.00001" =
          Some (mkConversionStatus "2101.00001" "error" 0 (Some 1)
                  (Some "PDF file not found at /data/papers/2101.00001.pdf")) ∧
        (ERROR, "HTML to Markdown conversion failed for 2101.00001: Connection refused")
          ∈ log w' ∧
        (files Sample.with_lost_pdf !! "/data/papers/2101.00001.pdf" = None →
         "PDF file not found at /data/papers/2101.00001.pdf" =
           "PDF file not found at /data/papers/2101.00001.pdf" ∧
         "PDF file not found at /data/papers/2101.00001.pdf" ≠ "").
Proof.
  assert (conversion_statuses Sample.with_lost_pdf !! "2101.00001"
            = Some Sample.converting_job) as H1 by reflexivity.
  assert (primary_result Sample.offline "2101.00001" =
            inl (mkExn (OtherException "ConnectionError") "Connection refused")) as H2
    by reflexivity.
  assert (secondary_result Sample.storage Sample.offline "2101.00001" Sample.with_lost_pdf =
            inl (mkExn FileNotFoundError "PDF file not found at /data/papers/2101.00001.pdf"))
    as H3 by reflexivity.
  exact (conj H1 (conj H2 (conj H3
           (convert_both_paths_fail Sample.storage Sample.offline "2101.00001"
              Sample.with_lost_pdf Sample.converting_job _ _ H1 H2 H3)))).
Defined.

(** C1, as stated, fails: the HTML page cannot be fetched, the PDF is on
    disk, and the extractor raises an exception whose text is empty.  The
    Job ends in 'error' with [completed_at] set, and its [error] is the
    empty string. *)
Lemma convert_error_text_can_be_empty :
  conversion_statuses Sample.with_converting_job !! "2101.00001"
    = Some Sample.converting_job ∧
  primary_result Sample.offline "2101.00001" =
    inl (mkExn (OtherException "ConnectionError") "Connection refused") ∧
  secondary_result Sample.storage Sample.offline "2101.00001" Sample.with_converting_job =
    inl (mkExn (OtherException "AssertionError") "") ∧
  conversion_statuses
    (convert_pdf_to_markdown Sample.storage Sample.offline "2101.00001"
       Sample.with_converting_job).2 !! "2101.00001" =
    Some (mkConversionStatus "2101.00001" "error" 0 (Some 1) (Some "")).
Proof. repeat split; vm_compute; reflexivity. Qed.


Lemma handle_download_never_raises_witness :
  arg_paper_id (mkArguments None None) = None ∧
  handle_download Sample.storage Sample.iso Sample.offline (mkArguments None None)
      Sample.fresh =
    (inr [mkTextContent "text"
            [("status", JStr "error"); ("message", JStr "Error: 'paper_id'")]],
     Sample.fresh).
Proof.
  assert (arg_paper_id (mkArguments None None) = None) as H1 by reflexivity.
  exact (conj H1
           (proj2 (proj2 (handle_download_never_raises Sample.storage Sample.iso
                            Sample.offline (mkArguments None None) Sample.fresh)) H1)).
Defined.


Lemma handle_download_already_available_witness :
  arg_paper_id (Sample.request "2101.00001") = Some "2101.00001" ∧
  default false (arg_check_status (Sample.request "2101.00001")) = false ∧
  is_Some (files Sample.with_artifact !! "/data/papers/2101.00001.md") ∧
  handle_download Sample.storage Sample.iso Sample.online
      (Sample.request "2101.00001") Sample.with_artifact =
    (inr [mkTextContent "text"
            [("status", JStr "success");
             ("message", JStr "Paper already available");
             ("resource_uri", JStr "file:///data/papers/2101.00001.md")]],
     set_dirs (λ d, {["/data/papers"]} ∪ d) Sample.with_artifact).
Proof.
  assert (arg_paper_id (Sample.request "2101.00001") = Some "2101.00001") as H1
    by reflexivity.
  assert (default false (arg_check_status (Sample.request "2101.00001")) = false) as H2
    by reflexivity.
  assert (is_Some (files Sample.with_artifact !! "/data/papers/2101.00001.md")) as H3
    by (exists "# Title"; reflexivity).
  exact (conj H1 (conj H2 (conj H3
           (handle_download_already_available Sample.storage Sample.iso Sample.online
              (Sample.request "2101.00001") Sample.with_artifact "2101.00001"
              H1 H2 H3)))).
Defined.


Lemma convert_without_job_witness :
  conversion_statuses Sample.fresh !! "2101.00001" = None ∧
  ∃ w', convert_pdf_to_markdown Sample.storage Sample.offline "2101.00001" Sample.fresh
          = (inr tt, w') ∧
        conversion_statuses w' = conversion_statuses Sample.fresh.
Proof.
  assert (conversion_statuses Sample.fresh !! "2101.00001" = None) as H1 by reflexivity.
  exact (conj H1
           (convert_without_job Sample.storage Sample.offline "2101.00001"
              Sample.fresh H1)).
Defined.




Lemma repeated_request_reports_job_witness :
  arg_paper_id (Sample.request "2101.00001") = Some "2101.00001" ∧
  default false (arg_check_status (Sample.request "2101.00001")) = false ∧
  files Sample.fresh !! "/data/papers/2101.00001.md" = None ∧
  conversion_statuses Sample.fresh !! "2101.00001" = None ∧
  let first := handle_download Sample.storage Sample.iso Sample.online
                 (Sample.request "2101.00001") Sample.fresh in
  let second := handle_download Sample.storage Sample.iso Sample.offline
                  (Sample.request "2101.00001") first.2 in
  ∃ j, conversion_statuses first.2 !! "2101.00001" = Some j ∧
       in_flight j ∧
       second.1 = inr [mkTextContent "text" (progress_report Sample.iso j)] ∧
       conversion_statuses second.2 = conversion_statuses first.2 ∧
       tasks second.2 = tasks first.2 ∧
       files second.2 = files first.2 ∧
       ∀ w' ext' arguments',
         rtc (step Sample.storage Sample.iso) first.2 w' →
         arg_paper_id arguments' = Some "2101.00001" →
         let later := handle_download Sample.storage Sample.iso ext' arguments' w' in
         conversion_statuses later.2 = conversion_statuses w' ∧
         tasks later.2 = tasks w' ∧
         files later.2 = files w'.
Proof.
  assert (arg_paper_id (Sample.request "2101.00001") = Some "2101.00001") as H1
    by reflexivity.
  assert (default false (arg_check_status (Sample.request "2101.00001")) = false) as H2
    by reflexivity.
  assert (files Sample.fresh !! "/data/papers/2101.00001.md" = None) as H3 by reflexivity.
  assert (conversion_statuses Sample.fresh !! "2101.00001" = None) as H4 by reflexivity.
  exact (conj H1 (conj H2 (conj H3 (conj H4
           (repeated_request_reports_job Sample.storage Sample.iso Sample.online
              Sample.offline (Sample.request "2101.00001") "2101.00001" Sample.fresh
              H1 H2 H3 H4))))).
Defined.

(** ** Further properties of the conversion *)



Section ConversionFacts.

Variable STORAGE_PATH : string.

Abbreviation md_of id := (STORAGE_PATH +:+ "/" +:+ id +:+ ".md").
Abbreviation pdf_of id := (STORAGE_PATH +:+ "/" +:+ id +:+ ".pdf").

(** The registry after a conversion, by the way the conversion went. *)
Lemma convert_statuses_cases ext id w :
  let w' := (convert_pdf_to_markdown STORAGE_PATH ext id w).2 in
  (∃ m, primary_result ext id = inr m ∧
        conversion_statuses w' = alter (succeeded (clock w)) id (conversion_statuses w))
  ∨ (∃ e m, primary_result ext id = inl e ∧
            secondary_result STORAGE_PATH ext id w = inr m ∧
            conversion_statuses w' =
              alter (succeeded_cleared (clock w)) id (conversion_statuses w))
  ∨ (∃ e pdf_e, primary_result ext id = inl e ∧
                secondary_result STORAGE_PATH ext id w = inl pdf_e ∧
                conversion_statuses w' =
                  alter (failed (exn_str pdf_e) (clock w)) id (conversion_statuses w)).
Proof.
  rewrite convert_pdf_to_markdown_run. cbn.
  destruct (primary_result ext id) as [e|m];
    [destruct (secondary_result STORAGE_PATH ext id w) as [pdf_e|m]|]; cbn;
    rewrite finish_statuses; cbn.
  - right. right. by exists e, pdf_e.
  - right. left. by exists e, m.
  - left. by exists m.
Qed.

(** The files after a conversion: those before, with the artifact of the
    paper written when a path succeeded. *)
Lemma convert_files_cases ext id w :
  let w' := (convert_pdf_to_markdown STORAGE_PATH ext id w).2 in
  files w' = files w ∨ ∃ m, files w' = <[md_of id := m]> (files w).
Proof.
  rewrite convert_pdf_to_markdown_run. cbn.
  destruct (primary_result ext id) as [e|m];
    [destruct (secondary_result STORAGE_PATH ext id w) as [pdf_e|m]|]; cbn;
    rewrite finish_files; cbn; eauto.
Qed.

(** X1.  A conversion always comes to an end for the registered Job: the
    call returns without an exception and the Job of the paper is then
    'success' or 'error', with [completed_at] set to the time of the
    update and with the [paper_id] and [started_at] it had. *)
Theorem convert_finishes_job ext id w j :
  conversion_statuses w !! id = Some j →
  ∃ w' j', convert_pdf_to_markdown STORAGE_PATH ext id w = (inr tt, w') ∧
           conversion_statuses w' !! id = Some j' ∧
           terminal j' ∧
           completed_at j' = Some (clock w) ∧
           paper_id j' = paper_id j ∧
           started_at j' = started_at j.
Proof.
  intros Hj.
  destruct (convert_statuses_cases ext id w)
    as [(m & _ & Hs) | [(e & m & _ & _ & Hs) | (e & pdf_e & _ & _ & Hs)]];
    rewrite convert_pdf_to_markdown_run in *; cbn in Hs;
    eexists _, _; (split; [reflexivity|]);
    rewrite Hs, lookup_alter_eq, Hj; cbn; (split; [reflexivity|]);
    unfold terminal; cbn; auto.
Qed.


End ConversionFacts.

(** ** Further properties of the request handler *)

Section RequestFacts.

Variable STORAGE_PATH : string.
Variable isoformat : datetime → string.

Abbreviation md_at id := (STORAGE_PATH +:+ "/" +:+ id +:+ ".md").
Abbreviation pdf_at id := (STORAGE_PATH +:+ "/" +:+ id +:+ ".pdf").
Abbreviation with_storage := (set_dirs (λ d, {[STORAGE_PATH]} ∪ d)).

Ltac unfold_request :=
  unfold handle_download, handle_download_try, handle_download_except,
    arguments_paper_id.

(** The run of a request that registers a Job and starts its conversion. *)
Lemma new_request_run ext arguments w id paper others pdf :
  arg_paper_id arguments = Some id →
  default false (arg_check_status arguments) = false →
  files w !! md_at id = None →
  conversion_statuses w !! id = None →
  arxiv_results ext id = inr (paper :: others) →
  download_pdf ext paper = inr pdf →
  handle_download STORAGE_PATH isoformat ext arguments w =
    (inr [mkTextContent "text"
            [("status", JStr "converting");
             ("message", JStr "Paper downloaded, conversion started");
             ("started_at", JStr (isoformat (clock w)))]],
     set_tasks (λ l, (l ++ [id])%list)
       (set_conversion_statuses
          (<[id := mkConversionStatus id "converting" (clock w) None None]>)
          (set_files (<[pdf_at id := pdf]>)
             (set_clock Z.succ (with_storage w))))).
Proof.
  destruct arguments as [paper_id check]. cbn.
  intros -> Hcheck Hmd Hj Hsearch Hdownload.
  unfold_request. unfold_m. cbn. rewrite Hcheck. cbn.
  rewrite Hmd. cbn. rewrite Hj. cbn. rewrite Hsearch. cbn.
  rewrite Hdownload. cbn. rewrite lookup_insert_eq. cbn.
  unfold set_tasks, set_conversion_statuses, set_files, set_clock, set_dirs. cbn.
  apply run_eq; [by rewrite alter_insert_eq | by rewrite (assoc_L (∪)), (idemp_L (∪))].
Qed.

(** X3.  A request for a paper with neither artifact nor Job, whose search
    finds the paper and whose download succeeds, registers the Job as
    'converting' with the time of the call as [started_at], stores the PDF
    at the '.pdf' path, hands one conversion of the paper to
    [create_task], and returns status 'converting' with that
    [started_at]. *)
Theorem handle_download_starts_conversion ext arguments w id paper others pdf :
  arg_paper_id arguments = Some id →
  default false (arg_check_status arguments) = false →
  files w !! md_at id = None →
  conversion_statuses w !! id = None →
  arxiv_results ext id = inr (paper :: others) →
  download_pdf ext paper = inr pdf →
  handle_download STORAGE_PATH isoformat ext arguments w =
    (inr [mkTextContent "text"
            [("status", JStr "converting");
             ("message", JStr "Paper downloaded, conversion started");
             ("started_at", JStr (isoformat (clock w)))]],
     set_tasks (λ l, (l ++ [id])%list)
       (set_conversion_statuses
          (<[id := mkConversionStatus id "converting" (clock w) None None]>)
          (set_files (<[pdf_at id := pdf]>)
             (set_clock Z.succ (with_storage w))))).
Proof. apply new_request_run. Qed.


(** X5.  A status check for a paper with a registered Job, in whatever
    state, reports that Job ('status', 'started_at', 'completed_at' and
    'error' with null for an unset field, 'message'), whether or not the
    artifact is on disk, and leaves the world exactly as it was. *)
Theorem status_check_reports_job ext arguments w id j :
  arg_paper_id arguments = Some id →
  arg_check_status arguments = Some true →
  conversion_statuses w !! id = Some j →
  handle_download STORAGE_PATH isoformat ext arguments w =
    (inr [mkTextContent "text"
            [("status", JStr (status j));
             ("started_at", JStr (isoformat (started_at j)));
             ("completed_at",
                if completed_at j is Some t then JStr (isoformat t) else JNull);
             ("error", if error j is Some msg then JStr msg else JNull);
             ("message", JStr ("Paper conversion " +:+ status j))]],
     w).
Proof. apply handle_download_check_job. Qed.

(** X6.  A request for a paper that has a registered Job and no artifact
    reports 'status', 'message' and 'started_at' of that Job and starts
    nothing: the registry, the files, the pending conversions, the clock
    and the log stay as they were.  This holds for a Job in state 'error'
    or 'downloading' too: a failed paper is not tried again. *)
Theorem request_reports_registered_job ext arguments w id j :
  arg_paper_id arguments = Some id →
  default false (arg_check_status arguments) = false →
  files w !! md_at id = None →
  conversion_statuses w !! id = Some j →
  handle_download STORAGE_PATH isoformat ext arguments w =
    (inr [mkTextContent "text"
            [("status", JStr (status j));
             ("message", JStr ("Paper conversion " +:+ status j));
             ("started_at", JStr (isoformat (started_at j)))]],
     with_storage w).
Proof. apply handle_download_in_progress. Qed.


End RequestFacts.

(** ** Further properties of runs *)

Section RunFacts.

Variable STORAGE_PATH : string.
Variable isoformat : datetime → string.

Abbreviation artifact_of id := (STORAGE_PATH +:+ "/" +:+ id +:+ ".md").

(** Only a Job that is 'converting' can be written to by a step. *)
Lemma step_keeps_idle w w' id j :
  pending_ok w → step STORAGE_PATH isoformat w w' →
  conversion_statuses w !! id = Some j → status j ≠ "converting" →
  conversion_statuses w' !! id = Some j.
Proof.
  intros [Hnodup Hjobs] Hstep Hj Hidle.
  destruct Hstep as [ext arguments w | ext id' before after w Htasks].
  - by apply handle_download_keeps_job.
  - destruct (convert_pdf_to_markdown_statuses STORAGE_PATH ext id'
                (set_tasks (λ _, (before ++ after)%list) w)) as (update & -> & _). cbn.
    assert (id' ≠ id) as Hne.
    { intros ->. destruct (Hjobs id) as (j' & Hj' & Hconv & _).
      - rewrite Htasks. apply elem_of_app. right. by left.
      - rewrite Hj in Hj'. by injection Hj' as <-. }
    by rewrite lookup_alter_ne.
Qed.

Lemma rtc_step_keeps_idle w w' id j :
  pending_ok w → rtc (step STORAGE_PATH isoformat) w w' →
  conversion_statuses w !! id = Some j → status j ≠ "converting" →
  conversion_statuses w' !! id = Some j.
Proof.
  intros Hok Hrun Hj Hidle. induction Hrun as [|w1 w2 w3 Hstep _ IH]; [done|].
  apply IH.
  - by apply (step_pending_ok STORAGE_PATH isoformat w1).
  - by apply (step_keeps_idle w1).
Qed.

Lemma step_registry_ok w w' :
  step STORAGE_PATH isoformat w w' → pending_ok w → registry_ok w → registry_ok w'.
Proof.
  intros Hstep [Hnodup Hpending] [Hjobs Hconv].
  destruct Hstep as [ext arguments w | ext id' before after w Htasks].
  - destruct (handle_download_effect STORAGE_PATH isoformat ext arguments w)
      as [(Hs & Ht & _) | (id & _ & Hnone & _ & [(Hs & Ht & _) | (pdf & Hs & Ht & _)])];
      unfold registry_ok; rewrite Hs, Ht.
    + done.
    + split; intros i j; (destruct (decide (i = id)) as [->|Hne];
        [rewrite lookup_insert_eq; intros [= <-] | rewrite lookup_insert_ne by done]).
      * split; [done|]. left. cbn. auto.
      * apply Hjobs.
      * done.
      * apply Hconv.
    + split; intros i j; (destruct (decide (i = id)) as [->|Hne];
        [rewrite lookup_insert_eq; intros [= <-] | rewrite lookup_insert_ne by done]).
      * split; [done|]. left. cbn. auto.
      * apply Hjobs.
      * intros _. apply elem_of_app. right. by left.
      * intros Hj Hc. apply elem_of_app. left. by apply (Hconv i j).
  - assert (tasks (convert_pdf_to_markdown STORAGE_PATH ext id'
                     (set_tasks (λ _, (before ++ after)%list) w)).2
            = (before ++ after)%list) as Ht.
    { by destruct (convert_pdf_to_markdown_statuses STORAGE_PATH ext id'
                     (set_tasks (λ _, (before ++ after)%list) w)) as (? & _ & -> & _). }
    destruct (Hpending id') as (j0 & Hj0 & Hc0 & Hdone0 & Herr0).
    { rewrite Htasks. apply elem_of_app. right. by left. }
    assert (paper_id j0 = id') as Hid0 by (by destruct (Hjobs id' j0 Hj0)).
    assert (∃ update : ConversionStatus → ConversionStatus,
              conversion_statuses
                (convert_pdf_to_markdown STORAGE_PATH ext id'
                   (set_tasks (λ _, (before ++ after)%list) w)).2
                = alter update id' (conversion_statuses w) ∧
              job_ok id' (update j0) ∧ status (update j0) ≠ "converting")
      as (update & Hs & Hok0 & Hidle0).
    { destruct (convert_statuses_cases STORAGE_PATH ext id'
                  (set_tasks (λ _, (before ++ after)%list) w))
        as [(m & _ & Hs) | [(e & m & _ & _ & Hs) | (e & pdf_e & _ & _ & Hs)]];
        eexists; (split; [exact Hs|]); cbn; (split; [|done]);
        (split; [done|]); cbn; rewrite ?Herr0; right; eauto. }
    unfold registry_ok. rewrite Ht, Hs.
    split; intros i j; (destruct (decide (i = id')) as [->|Hne];
      [rewrite lookup_alter_eq, Hj0; cbn; intros [= <-]
      |rewrite lookup_alter_ne by done]).
    + done.
    + apply Hjobs.
    + done.
    + intros Hj Hc. specialize (Hconv i j Hj Hc). rewrite Htasks in Hconv.
      apply elem_of_app in Hconv as [Hin|[Heq|Hin]%elem_of_cons].
      * apply elem_of_app. by left.
      * done.
      * apply elem_of_app. by right.
Qed.

Lemma reachable_registry_ok w : reachable STORAGE_PATH isoformat w → pending_ok w ∧ registry_ok w.
Proof.
  intros (w0 & Hinit & Hrun).
  assert (pending_ok w0 ∧ registry_ok w0) as Hstart.
  { split; [by apply initial_pending_ok|]. destruct Hinit as [Hempty Htasks].
    split; intros id j; rewrite Hempty, lookup_empty; done. }
  clear Hinit. induction Hrun as [|w1 w2 w3 Hstep _ IH]; [done|].
  apply IH. destruct Hstart as [Hp Hr]. split.
  - by apply (step_pending_ok STORAGE_PATH isoformat w1).
  - by apply (step_registry_ok w1).
Qed.



(** X10.  In every run a Job that is 'downloading' between two steps,
    which is a Job whose search or download failed, stays as it is through
    every further step: no request and no conversion takes it up again. *)
Theorem downloading_job_is_stuck w id j :
  reachable STORAGE_PATH isoformat w → conversion_statuses w !! id = Some j → status j = "downloading" →
  ∀ w', rtc (step STORAGE_PATH isoformat) w w' → conversion_statuses w' !! id = Some j.
Proof.
  intros [Hok _]%reachable_registry_ok Hj Hstatus w' Hrun.
  apply (rtc_step_keeps_idle w); [done..|]. by rewrite Hstatus.
Qed.

(** X11.  Jobs are never removed and keep their identity: through any
    sequence of steps, from any world, a registered Job stays registered
    with the same [paper_id] and [started_at]. *)
Theorem jobs_keep_identity w w' id j :
  rtc (step STORAGE_PATH isoformat) w w' → conversion_statuses w !! id = Some j →
  ∃ j', conversion_statuses w' !! id = Some j' ∧
        paper_id j' = paper_id j ∧ started_at j' = started_at j.
Proof.
  intros Hrun. revert j. induction Hrun as [|w1 w2 w3 Hstep _ IH]; intros j Hj.
  - by exists j.
  - destruct (step_keeps_registered STORAGE_PATH isoformat _ _ _ _ Hstep Hj)
      as (j2 & Hj2 & Hp & Hs).
    destruct (IH j2 Hj2) as (j3 & Hj3 & Hp' & Hs'). exists j3. split; [done|].
    split; congruence.
Qed.

Lemma step_keeps_files w w' path :
  step STORAGE_PATH isoformat w w' → is_Some (files w !! path) → is_Some (files w' !! path).
Proof.
  intros Hstep Hfile. destruct Hstep as [ext arguments w | ext id' before after w Htasks].
  - destruct (handle_download_effect STORAGE_PATH isoformat ext arguments w)
      as [(_ & _ & ->) | (id & _ & _ & _ & [(_ & _ & ->) | (pdf & _ & _ & ->)])];
      [done..|]. by apply lookup_insert_is_Some'; right.
  - destruct (convert_files_cases STORAGE_PATH ext id'
                (set_tasks (λ _, (before ++ after)%list) w)) as [-> | (m & ->)];
      [done|]. by apply lookup_insert_is_Some'; right.
Qed.

(** X12.  No step removes a file, so an artifact that is on disk stays
    available: at every later point of a run a request for the paper
    returns 'Paper already available' with its locator, whatever the
    registry says about the paper. *)
Theorem artifact_stays_available w w' ext arguments id :
  is_Some (files w !! artifact_of id) →
  rtc (step STORAGE_PATH isoformat) w w' →
  arg_paper_id arguments = Some id →
  default false (arg_check_status arguments) = false →
  is_Some (files w' !! artifact_of id) ∧
  (handle_download STORAGE_PATH isoformat ext arguments w').1 =
    inr [mkTextContent "text"
           [("status", JStr "success");
            ("message", JStr "Paper already available");
            ("resource_uri", JStr ("file://" +:+ artifact_of id))]].
Proof.
  intros Hfile Hrun Hid Hcheck.
  assert (is_Some (files w' !! artifact_of id)) as Hfile'.
  { induction Hrun as [|w1 w2 w3 Hstep _ IH]; [done|].
    apply IH. by apply (step_keeps_files w1). }
  split; [done|].
  destruct arguments as [paper_id check]. cbn in Hid, Hcheck. subst paper_id.
  unfold handle_download, handle_download_try, handle_download_except,
    arguments_paper_id. unfold_m. cbn. rewrite Hcheck. cbn.
  by rewrite bool_decide_true.
Qed.

End RunFacts.

(** ** Requests and conversions together *)

Section Composition.

Variable STORAGE_PATH : string.
Variable isoformat : datetime → string.

Abbreviation md_file id := (STORAGE_PATH +:+ "/" +:+ id +:+ ".md").

Lemma job_ok_status id j : job_ok id j → status j ∈ result_statuses.
Proof.
  unfold result_statuses.
  intros [_ [([-> | ->] & _) | [(-> & _) | (-> & _)]]];
    rewrite !elem_of_cons; auto 10.
Qed.

(** X13.  In every run, whatever the arguments and the collaborators, the
    result of [handle_download] is one text content whose dictionary
    starts with the key 'status', and the status is one of 'success',
    'error', 'unknown', 'downloading' and 'converting'. *)
Theorem result_status_is_known w ext arguments :
  reachable STORAGE_PATH isoformat w →
  ∃ s others w',
    handle_download STORAGE_PATH isoformat ext arguments w =
      (inr [mkTextContent "text" (("status", JStr s) :: others)], w') ∧
    s ∈ result_statuses.
Proof.
  intros [_ [Hjobs _]]%reachable_registry_ok.
  assert (∀ s, s ∈ ["success"; "error"; "unknown"; "converting"] → s ∈ result_statuses)
    as Hfixed.
  { intros s. unfold result_statuses. rewrite !elem_of_cons. intuition. }
  assert (∀ id j, conversion_statuses w !! id = Some j → status j ∈ result_statuses)
    as Hjob by (intros id j Hj; by apply (job_ok_status id), Hjobs).
  unfold handle_download, handle_download_try, handle_download_except,
    arguments_paper_id.
  destruct arguments as [[id|] check]; unfold_m; cbn.
  2: { eexists _, _, _. split; [reflexivity|]. apply Hfixed. set_solver. }
  destruct (default false check); cbn.
  - destruct (conversion_statuses w !! id) as [j|] eqn:Hj; cbn.
    + eexists _, _, _. split; [reflexivity|]. by apply (Hjob id).
    + case_bool_decide; cbn; eexists _, _, _; (split; [reflexivity|]);
        apply Hfixed; set_solver.
  - case_bool_decide; cbn.
    { eexists _, _, _. split; [reflexivity|]. apply Hfixed. set_solver. }
    case_bool_decide; cbn.
    + destruct (conversion_statuses w !! id) as [j|] eqn:Hj; cbn.
      * eexists _, _, _. split; [reflexivity|]. by apply (Hjob id).
      * eexists _, _, _. split; [reflexivity|]. apply Hfixed. set_solver.
    + destruct (arxiv_results ext id) as [e|[|paper ?]]; cbn.
      * destruct (is_StopIteration e); eexists _, _, _; (split; [reflexivity|]);
          apply Hfixed; set_solver.
      * eexists _, _, _. split; [reflexivity|]. apply Hfixed. set_solver.
      * destruct (download_pdf ext paper) as [e|pdf]; cbn.
        -- destruct (is_StopIteration e); eexists _, _, _; (split; [reflexivity|]);
             apply Hfixed; set_solver.
        -- rewrite lookup_insert_eq. cbn.
           eexists _, _, _. split; [reflexivity|]. apply Hfixed. set_solver.
Qed.

(** X14.  A request and its conversion fit together.  After a request
    that downloads the PDF [pdf], a conversion whose HTML path yields [m],
    or whose HTML path fails while the extractor turns that same [pdf]
    into [m], leaves the Job 'success' with the [started_at] of the request
    and no [error], and [m] as the artifact; a request for the paper then
    returns 'Paper already available'. *)
Theorem request_then_conversion ext1 ext2 ext3 arguments w id paper others pdf m :
  arg_paper_id arguments = Some id →
  default false (arg_check_status arguments) = false →
  files w !! md_file id = None →
  conversion_statuses w !! id = None →
  arxiv_results ext1 id = inr (paper :: others) →
  download_pdf ext1 paper = inr pdf →
  primary_result ext2 id = inr m ∨
    (∃ e, primary_result ext2 id = inl e ∧ to_markdown ext2 pdf = inr m) →
  let requested := (handle_download STORAGE_PATH isoformat ext1 arguments w).2 in
  let converted := (convert_pdf_to_markdown STORAGE_PATH ext2 id requested).2 in
  conversion_statuses converted !! id =
    Some (mkConversionStatus id "success" (clock w) (Some (Z.succ (clock w))) None) ∧
  files converted !! md_file id = Some m ∧
  (handle_download STORAGE_PATH isoformat ext3 arguments converted).1 =
    inr [mkTextContent "text"
           [("status", JStr "success");
            ("message", JStr "Paper already available");
            ("resource_uri", JStr ("file://" +:+ md_file id))]].
Proof.
  intros Hid Hcheck Hmd Hnone Hsearch Hdownload Hpath requested converted.
  subst converted requested.
  rewrite (new_request_run STORAGE_PATH isoformat ext1 arguments w id paper others pdf)
    by done. cbn.
  set (requested := set_tasks _ _).
  assert (secondary_result STORAGE_PATH ext2 id requested = to_markdown ext2 pdf) as Hsec.
  { unfold secondary_result, requested. cbn. by rewrite lookup_insert_eq. }
  assert (conversion_statuses requested !! id =
            Some (mkConversionStatus id "converting" (clock w) None None)) as Hj
    by (unfold requested; cbn; by rewrite lookup_insert_eq).
  assert (clock requested = Z.succ (clock w)) as Hclock by done.
  clearbody requested.
  rewrite convert_pdf_to_markdown_run, Hsec.
  assert (∀ w', files w' !! md_file id = Some m →
            (handle_download STORAGE_PATH isoformat ext3 arguments w').1 =
              inr [mkTextContent "text"
                     [("status", JStr "success");
                      ("message", JStr "Paper already available");
                      ("resource_uri", JStr ("file://" +:+ md_file id))]]) as Havailable.
  { intros w' Hfile. destruct arguments as [paper_id check]. cbn in Hid, Hcheck.
    subst paper_id.
    unfold handle_download, handle_download_try, handle_download_except,
      arguments_paper_id. unfold_m. cbn. rewrite Hcheck. cbn.
    rewrite Hfile. cbn. done. }
  destruct Hpath as [-> | (e & -> & ->)]; cbn.
  - assert (files (finish id succeeded
               (set_files <[md_file id:=m]>
                  (set_dirs (λ d, {[STORAGE_PATH]} ∪ d)
                     (logged INFO ("Starting HTML to Markdown conversion for " +:+ id)
                        requested)))) !! md_file id = Some m) as Hfile
      by (rewrite finish_files; cbn; by rewrite lookup_insert_eq).
    split; [|split; [done|by apply Havailable]].
    rewrite finish_statuses. cbn. by rewrite lookup_alter_eq, Hj, Hclock.
  - assert (files (finish id succeeded_cleared
               (set_files <[md_file id:=m]>
                  (set_dirs (λ d, {[STORAGE_PATH]} ∪ d) (fallen_back id e requested))))
              !! md_file id = Some m) as Hfile
      by (rewrite finish_files; cbn; by rewrite lookup_insert_eq).
    split; [|split; [done|by apply Havailable]].
    rewrite finish_statuses. cbn. by rewrite lookup_alter_eq, Hj, Hclock.
Qed.

End Composition.

(** ** The further properties at sample inputs *)

Lemma sample_requested_in_run : reachable Sample.storage Sample.iso Sample.requested.
Proof.
  exists Sample.fresh. split; [by split|].
  apply rtc_once, (step_request _ _ Sample.online (Sample.request "2101.00001")).
Qed.

Lemma sample_convert_step :
  step Sample.storage Sample.iso Sample.requested Sample.converted.
Proof.
  apply (step_convert Sample.storage Sample.iso Sample.online "2101.00001" [] []
           Sample.requested).
  vm_compute; reflexivity.
Qed.

Lemma convert_finishes_job_witness :
  conversion_statuses Sample.with_converting_job !! "2101.00001"
    = Some Sample.converting_job ∧
  ∃ w' j', convert_pdf_to_markdown Sample.storage Sample.offline "2101.00001"
             Sample.with_converting_job = (inr tt, w') ∧
           conversion_statuses w' !! "2101.00001" = Some j' ∧
           terminal j' ∧
           completed_at j' = Some (clock Sample.with_converting_job) ∧
           paper_id j' = paper_id Sample.converting_job ∧
           started_at j' = started_at Sample.converting_job.
Proof.
  assert (conversion_statuses Sample.with_converting_job !! "2101.00001"
            = Some Sample.converting_job) as H1 by reflexivity.
  exact (conj H1
           (convert_finishes_job Sample.storage Sample.offline "2101.00001"
              Sample.with_converting_job Sample.converting_job H1)).
Defined.

Lemma handle_download_starts_conversion_witness :
  arg_paper_id (Sample.request "2101.00001") = Some "2101.00001" ∧
  default false (arg_check_status (Sample.request "2101.00001")) = false ∧
  files Sample.fresh !! "/data/papers/2101.00001.md" = None ∧
  conversion_statuses Sample.fresh !! "2101.00001" = None ∧
  arxiv_results Sample.online "2101.00001" = inr [mkPaper "2101.00001"] ∧
  download_pdf Sample.online (mkPaper "2101.00001") = inr "%PDF-1.5" ∧
  handle_download Sample.storage Sample.iso Sample.online
      (Sample.request "2101.00001") Sample.fresh =
    (inr [mkTextContent "text"
            [("status", JStr "converting");
             ("message", JStr "Paper downloaded, conversion started");
             ("started_at", JStr "0")]],
     mkWorld
       {["2101.00001" := mkConversionStatus "2101.00001" "converting" 0 None None]}
       ({["/data/papers"]} ∪ ∅)
       {["/data/papers/2101.00001.pdf" := "%PDF-1.5"]}
       1 [] ["2101.00001"]).
Proof.
  assert (arg_paper_id (Sample.request "2101.00001") = Some "2101.00001") as H1
    by reflexivity.
  assert (default false (arg_check_status (Sample.request "2101.00001")) = false) as H2
    by reflexivity.
  assert (files Sample.fresh !! "/data/papers/2101.00001.md" = None) as H3 by reflexivity.
  assert (conversion_statuses Sample.fresh !! "2101.00001" = None) as H4 by reflexivity.
  assert (arxiv_results Sample.online "2101.00001" = inr [mkPaper "2101.00001"]) as H5
    by reflexivity.
  assert (download_pdf Sample.online (mkPaper "2101.00001") = inr "%PDF-1.5") as H6
    by reflexivity.
  exact (conj H1 (conj H2 (conj H3 (conj H4 (conj H5 (conj H6
           (handle_download_starts_conversion Sample.storage Sample.iso Sample.online
              (Sample.request "2101.00001") Sample.fresh "2101.00001"
              (mkPaper "2101.00001") [] "%PDF-1.5" H1 H2 H3 H4 H5 H6))))))).
Defined.


Lemma status_check_reports_job_witness :
  arg_paper_id (Sample.check "2101.00001") = Some "2101.00001" ∧
  arg_check_status (Sample.check "2101.00001") = Some true ∧
  conversion_statuses Sample.with_failed_job !! "2101.00001" = Some Sample.failed_job ∧
  handle_download Sample.storage Sample.iso Sample.offline
      (Sample.check "2101.00001") Sample.with_failed_job =
    (inr [mkTextContent "text"
            [("status", JStr "error");
             ("started_at", JStr "0");
             ("completed_at", JStr "1");
             ("error", JStr "boom");
             ("message", JStr "Paper conversion error")]],
     Sample.with_failed_job).
Proof.
  assert (arg_paper_id (Sample.check "2101.00001") = Some "2101.00001") as H1
    by reflexivity.
  assert (arg_check_status (Sample.check "2101.00001") = Some true) as H2 by reflexivity.
  assert (conversion_statuses Sample.with_failed_job !! "2101.00001"
            = Some Sample.failed_job) as H3 by reflexivity.
  exact (conj H1 (conj H2 (conj H3
           (status_check_reports_job Sample.storage Sample.iso Sample.offline
              (Sample.check "2101.00001") Sample.with_failed_job "2101.00001"
              Sample.failed_job H1 H2 H3)))).
Defined.

Lemma request_reports_registered_job_witness :
  arg_paper_id (Sample.request "2101.00001") = Some "2101.00001" ∧
  default false (arg_check_status (Sample.request "2101.00001")) = false ∧
  files Sample.with_failed_job !! "/data/papers/2101.00001.md" = None ∧
  conversion_statuses Sample.with_failed_job !! "2101.00001" = Some Sample.failed_job ∧
  handle_download Sample.storage Sample.iso Sample.online
      (Sample.request "2101.00001") Sample.with_failed_job =
    (inr [mkTextContent "text"
            [("status", JStr "error");
             ("message", JStr "Paper conversion error");
             ("started_at", JStr "0")]],
     set_dirs (λ d, {["/data/papers"]} ∪ d) Sample.with_failed_job).
Proof.
  assert (arg_paper_id (Sample.request "2101.00001") = Some "2101.00001") as H1
    by reflexivity.
  assert (default false (arg_check_status (Sample.request "2101.00001")) = false) as H2
    by reflexivity.
  assert (files Sample.with_failed_job !! "/data/papers/2101.00001.md" = None) as H3
    by reflexivity.
  assert (conversion_statuses Sample.with_failed_job !! "2101.00001"
            = Some Sample.failed_job) as H4 by reflexivity.
  exact (conj H1 (conj H2 (conj H3 (conj H4
           (request_reports_registered_job Sample.storage Sample.iso Sample.online
              (Sample.request "2101.00001") Sample.with_failed_job "2101.00001"
              Sample.failed_job H1 H2 H3 H4))))).
Defined.



Lemma downloading_job_is_stuck_witness :
  reachable Sample.storage Sample.iso Sample.stalled ∧
  conversion_statuses Sample.stalled !! "2101.00001" =
    Some (mkConversionStatus "2101.00001" "downloading" 0 None None) ∧
  status (mkConversionStatus "2101.00001" "downloading" 0 None None) = "downloading" ∧
  ∀ w', rtc (step Sample.storage Sample.iso) Sample.stalled w' →
        conversion_statuses w' !! "2101.00001" =
          Some (mkConversionStatus "2101.00001" "downloading" 0 None None).
Proof.
  assert (reachable Sample.storage Sample.iso Sample.stalled) as H1.
  { exists Sample.fresh. split; [by split|].
    apply rtc_once, (step_request _ _ Sample.offline (Sample.request "2101.00001")). }
  assert (conversion_statuses Sample.stalled !! "2101.00001" =
            Some (mkConversionStatus "2101.00001" "downloading" 0 None None)) as H2
    by (vm_compute; reflexivity).
  assert (status (mkConversionStatus "2101.00001" "downloading" 0 None None)
            = "downloading") as H3 by reflexivity.
  exact (conj H1 (conj H2 (conj H3
           (downloading_job_is_stuck Sample.storage Sample.iso Sample.stalled
              "2101.00001" _ H1 H2 H3)))).
Defined.

Lemma jobs_keep_identity_witness :
  rtc (step Sample.storage Sample.iso) Sample.requested Sample.converted ∧
  conversion_statuses Sample.requested !! "2101.00001" =
    Some (mkConversionStatus "2101.00001" "converting" 0 None None) ∧
  ∃ j', conversion_statuses Sample.converted !! "2101.00001" = Some j' ∧
        paper_id j' = "2101.00001" ∧ started_at j' = 0.
Proof.
  assert (rtc (step Sample.storage Sample.iso) Sample.requested Sample.converted) as H1
    by apply rtc_once, sample_convert_step.
  assert (conversion_statuses Sample.requested !! "2101.00001" =
            Some (mkConversionStatus "2101.00001" "converting" 0 None None)) as H2
    by (vm_compute; reflexivity).
  exact (conj H1 (conj H2
           (jobs_keep_identity Sample.storage Sample.iso Sample.requested
              Sample.converted "2101.00001" _ H1 H2))).
Defined.

Lemma artifact_stays_available_witness :
  is_Some (files Sample.converted !! "/data/papers/2101.00001.md") ∧
  rtc (step Sample.storage Sample.iso) Sample.converted
    (handle_download Sample.storage Sample.iso Sample.offline
       (Sample.request "2101.00002") Sample.converted).2 ∧
  arg_paper_id (Sample.request "2101.00001") = Some "2101.00001" ∧
  default false (arg_check_status (Sample.request "2101.00001")) = false ∧
  is_Some (files
             (handle_download Sample.storage Sample.iso Sample.offline
                (Sample.request "2101.00002") Sample.converted).2
           !! "/data/papers/2101.00001.md") ∧
  (handle_download Sample.storage Sample.iso Sample.offline
     (Sample.request "2101.00001")
     (handle_download Sample.storage Sample.iso Sample.offline
        (Sample.request "2101.00002") Sample.converted).2).1 =
    inr [mkTextContent "text"
           [("status", JStr "success");
            ("message", JStr "Paper already available");
            ("resource_uri", JStr "file:///data/papers/2101.00001.md")]].
Proof.
  assert (is_Some (files Sample.converted !! "/data/papers/2101.00001.md")) as H1
    by (exists "# <h1>Title</h1>"; vm_compute; reflexivity).
  assert (rtc (step Sample.storage Sample.iso) Sample.converted
            (handle_download Sample.storage Sample.iso Sample.offline
               (Sample.request "2101.00002") Sample.converted).2) as H2
    by apply rtc_once, step_request.
  assert (arg_paper_id (Sample.request "2101.00001") = Some "2101.00001") as H3
    by reflexivity.
  assert (default false (arg_check_status (Sample.request "2101.00001")) = false) as H4
    by reflexivity.
  exact (conj H1 (conj H2 (conj H3 (conj H4
           (artifact_stays_available Sample.storage Sample.iso Sample.converted _
              Sample.offline (Sample.request "2101.00001") "2101.00001"
              H1 H2 H3 H4))))).
Defined.

Lemma result_status_is_known_witness :
  reachable Sample.storage Sample.iso Sample.requested ∧
  ∃ s others w',
    handle_download Sample.storage Sample.iso Sample.online
        (Sample.check "2101.00001") Sample.requested =
      (inr [mkTextContent "text" (("status", JStr s) :: others)], w') ∧
    s ∈ result_statuses.
Proof.
  exact (conj sample_requested_in_run
           (result_status_is_known Sample.storage Sample.iso Sample.requested
              Sample.online (Sample.check "2101.00001") sample_requested_in_run)).
Defined.

Lemma request_then_conversion_witness :
  arg_paper_id (Sample.request "2101.00001") = Some "2101.00001" ∧
  default false (arg_check_status (Sample.request "2101.00001")) = false ∧
  files Sample.fresh !! "/data/papers/2101.00001.md" = None ∧
  conversion_statuses Sample.fresh !! "2101.00001" = None ∧
  arxiv_results Sample.no_html "2101.00001" = inr [mkPaper "2101.00001"] ∧
  download_pdf Sample.no_html (mkPaper "2101.00001") = inr "%PDF-1.5" ∧
  (primary_result Sample.no_html "2101.00001" = inr "text of %PDF-1.5" ∨
   ∃ e, primary_result Sample.no_html "2101.00001" = inl e ∧
        to_markdown Sample.no_html "%PDF-1.5" = inr "text of %PDF-1.5") ∧
  let requested := (handle_download Sample.storage Sample.iso Sample.no_html
                      (Sample.request "2101.00001") Sample.fresh).2 in
  let converted := (convert_pdf_to_markdown Sample.storage Sample.no_html
                      "2101.00001" requested).2 in
  conversion_statuses converted !! "2101.00001" =
    Some (mkConversionStatus "2101.00001" "success" 0 (Some 1) None) ∧
  files converted !! "/data/papers/2101.00001.md" = Some "text of %PDF-1.5" ∧
  (handle_download Sample.storage Sample.iso Sample.offline
     (Sample.request "2101.00001") converted).1 =
    inr [mkTextContent "text"
           [("status", JStr "success");
            ("message", JStr "Paper already available");
            ("resource_uri", JStr "file:///data/papers/2101.00001.md")]].
Proof.
  assert (arg_paper_id (Sample.request "2101.00001") = Some "2101.00001") as H1
    by reflexivity.
  assert (default false (arg_check_status (Sample.request "2101.00001")) = false) as H2
    by reflexivity.
  assert (files Sample.fresh !! "/data/papers/2101.00001.md" = None) as H3 by reflexivity.
  assert (conversion_statuses Sample.fresh !! "2101.00001" = None) as H4 by reflexivity.
  assert (arxiv_results Sample.no_html "2101.00001" = inr [mkPaper "2101.00001"]) as H5
    by reflexivity.
  assert (download_pdf Sample.no_html (mkPaper "2101.00001") = inr "%PDF-1.5") as H6
    by reflexivity.
  assert (primary_result Sample.no_html "2101.00001" = inr "text of %PDF-1.5" ∨
          ∃ e, primary_result Sample.no_html "2101.00001" = inl e ∧
               to_markdown Sample.no_html "%PDF-1.5" = inr "text of %PDF-1.5") as H7.
  { right. eexists. split; vm_compute; reflexivity. }
  exact (conj H1 (conj H2 (conj H3 (conj H4 (conj H5 (conj H6 (conj H7
           (request_then_conversion Sample.storage Sample.iso Sample.no_html
              Sample.no_html Sample.offline (Sample.request "2101.00001") Sample.fresh
              "2101.00001" (mkPaper "2101.00001") [] "%PDF-1.5" "text of %PDF-1.5"
              H1 H2 H3 H4 H5 H6 H7)))))))).
Defined.
